(** * GoogleTokenStrategy (src/index.js): a shallow embedding and its properties

    The class of src/index.js extends passport-oauth's [OAuth2Strategy].  Its
    methods are embedded as functions into a small writer-and-exception
    monad: the writer part is the sequence of calls the strategy makes to
    its collaborators (the host framework's [success]/[fail]/[error], the
    OAuth2 client's [get], the application's [verify]), the exception part
    is a JavaScript [throw]. *)

From Stdlib Require Import String Ascii List ZArith Bool Lia.
Import ListNotations.
Open Scope string_scope.

Set Warnings "-register-all".

(** ** JavaScript values and the operations the source applies to them *)

Module JS.

(** The values that flow through the strategy.  Numbers are restricted to
    integers and NaN, which is all that truthiness distinguishes.  Error
    objects are objects with a [name] and a [message]. *)
Inductive value : Type :=
| VUndefined
| VNull
| VBool (b : bool)
| VNum (n : Z)
| VNaN
| VStr (s : string)
| VArr (elements : list value)
| VObj (fields : list (string * value)).

(** ToBoolean, as used by [if], [!], [||] and [&&]. *)
Definition truthy (v : value) : bool :=
  match v with
  | VUndefined | VNull | VNaN => false
  | VBool b => b
  | VNum n => negb (n =? 0)%Z
  | VStr s => negb (s =? EmptyString)
  | VArr _ | VObj _ => true
  end.

Definition nullish (v : value) : bool :=
  match v with
  | VUndefined | VNull => true
  | _ => false
  end.

(** Own-property lookup in an object literal; a missing key is
    [undefined]. *)
Fixpoint lookup (k : string) (fields : list (string * value)) : value :=
  match fields with
  | [] => VUndefined
  | (k', v) :: rest => if k' =? k then v else lookup k rest
  end.

Fixpoint has_key (k : string) (fields : list (string * value)) : bool :=
  match fields with
  | [] => false
  | (k', _) :: rest => (k' =? k) || has_key k rest
  end.

(** [o.k] for a receiver that is neither [undefined] nor [null].  The keys
    this program reads ([error], [access_token], [refresh_token], [id],
    [name], [family_name], [given_name], [middle_name], [gender], [email],
    [picture], [authorizationURL], [tokenURL]) are not built-in properties
    of strings, numbers, booleans or arrays, so those receivers answer
    [undefined]. *)
Definition prop (o : value) (k : string) : value :=
  match o with
  | VObj fields => lookup k fields
  | _ => VUndefined
  end.

(** [o.k = v] on an object literal: replaces the first binding of [k] or
    appends a new one. *)
Fixpoint assign (k : string) (v : value) (fields : list (string * value))
  : list (string * value) :=
  match fields with
  | [] => [(k, v)]
  | (k', v') :: rest =>
      if k' =? k then (k, v) :: rest else (k', v') :: assign k v rest
  end.

(** The TypeError of a property read on [undefined] or [null]. *)
Definition TypeError (message : string) : value :=
  VObj [("name", VStr "TypeError"); ("message", VStr message)].

Definition cannot_read (o : value) (k : string) : value :=
  TypeError ("Cannot read properties of "
             ++ (match o with VNull => "null" | _ => "undefined" end)
             ++ " (reading '" ++ k ++ "')").

(** How the evaluation of an expression or statement ends. *)
Inductive completion (A : Type) : Type :=
| Normal (a : A)
| Throw (exception : value).
Arguments Normal {A} a.
Arguments Throw {A} exception.

End JS.
Import JS.

(** ** Calls to collaborators, and the monad of a run *)

(** One call made by the strategy to something outside src/index.js. *)
Inductive event : Type :=
| Success (user info : value)              (* this.success(user, info) *)
| Fail (info : value)                      (* this.fail(info) *)
| Error (err : value)                      (* this.error(err) *)
| OAuthGet (url : string) (accessToken : value)
                                           (* this._oauth2.get(url, accessToken, cb) *)
| Verify (args : list value).              (* this.verify(..., verified) *)

(** A run: the calls made so far, and how it ended.  The callback of
    [OAuthGet] runs in a later turn of the event loop, so a [Throw] that
    follows an [OAuthGet] event is an exception nobody catches, while a
    [Throw] with no [OAuthGet] before it reaches the caller of
    [authenticate]. *)
Definition M (A : Type) : Type := (list event * completion A)%type.

Definition ret {A} (a : A) : M A := ([], Normal a).
Definition throw {A} (e : value) : M A := ([], Throw e).
Definition emit (ev : event) : M unit := ([ev], Normal tt).

Definition bind {A B} (m : M A) (f : A -> M B) : M B :=
  match m with
  | (tr, Normal a) => let (tr', c) := f a in ((tr ++ tr')%list, c)
  | (tr, Throw e) => (tr, Throw e)
  end.

(** [try { m } catch (e) { handler e }] *)
Definition try_catch {A} (m : M A) (handler : value -> M A) : M A :=
  match m with
  | (tr, Normal a) => (tr, Normal a)
  | (tr, Throw e) => let (tr', c) := handler e in ((tr ++ tr')%list, c)
  end.

Definition lift {A} (c : completion A) : M A := ([], c).

Declare Scope js_scope.
Delimit Scope js_scope with js.
Notation "x <- m ;; k" := (bind m (fun x => k))
  (at level 61, m at next level, right associativity) : js_scope.
Notation "m ;;; k" := (bind m (fun _ => k))
  (at level 61, right associativity) : js_scope.
Open Scope js_scope.

(** [o.k] as an expression: a TypeError when [o] is [undefined] or [null]. *)
Definition get_prop (o : value) (k : string) : M value :=
  if nullish o then throw (cannot_read o k) else ret (prop o k).

(** [a || b] and [a && b]: the right operand is evaluated only when the
    left one does not decide. *)
Definition js_or (a b : M value) : M value :=
  v <- a ;; if truthy v then ret v else b.

Definition js_and (a b : M value) : M value :=
  v <- a ;; if truthy v then b else ret v.

(** What [this] is bound to when a function body is entered.  An arrow
    function and a method called as [this.m(...)] see the strategy.  A
    [function] expression or declaration called as [f(...)] sees
    [undefined], since class bodies are strict code. *)
Inductive this_arg : Type :=
| this_undefined
| this_strategy.

(** [this.k] followed by the rest [rest] of the computation. *)
Definition this_get {A} (this : this_arg) (k : string) (rest : M A) : M A :=
  match this with
  | this_undefined => throw (cannot_read VUndefined k)
  | this_strategy => rest
  end.

(** ** The collaborators of the strategy *)

(** An arrow function of two parameters: its [this] is the one of the
    place where it was written, whatever the caller does. *)
Definition arrow2 : Type := value -> value -> M unit.

(** A [function] of two or three parameters: its [this] is chosen by each
    call. *)
Definition function2 : Type := this_arg -> value -> value -> M unit.
Definition function3 : Type := this_arg -> value -> value -> value -> M unit.

(** A function supplied by the application as [skipUserProfile]: its
    declared number of parameters ([f.length]) and what a call does, given
    the plain arguments and the callback argument, if one is passed. *)
Record js_function : Type := {
  fn_length : nat;
  fn_call : list value -> option arrow2 -> M value
}.

(** [this._skipUserProfile], by [typeof]. *)
Inductive skip_setting : Type :=
| skip_value (v : value)            (* typeof is not 'function' *)
| skip_function (f : js_function).  (* typeof === 'function' *)

(** The application's verify callback: the plain arguments and the
    [verified] function it is handed as last argument. *)
Definition verify_fn : Type := list value -> function3 -> M unit.

(** The OAuth2 client behind [this._oauth2]: what the provider answers to
    a [get], as the pair [(err, body)] handed to the callback, or [None]
    when the callback is never called. *)
Record OAuth2 : Type := {
  respond : string -> value -> option (value * value)
}.

(** [this._oauth2.get(url, accessToken, cb)] *)
Definition oauth2_get (client : OAuth2) (url : string) (accessToken : value)
    (cb : arrow2) : M unit :=
  emit (OAuthGet url accessToken) ;;;
  match respond client url accessToken with
  | Some (err, body) => cb err body
  | None => ret tt
  end.

(** [new InternalOAuthError(message, err)] of passport-oauth: an error
    object that keeps the message and the underlying cause. *)
Definition InternalOAuthError (message : string) (err : value) : value :=
  VObj [("name", VStr "InternalOAuthError");
        ("message", VStr message);
        ("oauthError", err)].

(** The fields of a strategy instance: [options], [verify] and [name] are
    stored by the constructor of src/index.js, the underscored ones by the
    constructor of the base class. *)
Record Strategy : Type := {
  options : value;
  verify : verify_fn;
  name : string;
  _oauth2 : OAuth2;
  _passReqToCallback : value;
  _skipUserProfile : skip_setting
}.

(** What [super(_options, verify)] leaves on the instance. *)
Record base_fields : Type := {
  base_oauth2 : OAuth2;
  base_passReqToCallback : value;
  base_skipUserProfile : skip_setting
}.

(** The first argument of the constructor: an options object, as the type
    declarations require, or nothing at all. *)
Inductive options_arg : Type :=
| options_undefined
| options_null
| options_object (fields : list (string * value)).

Definition options_value (o : options_arg) : value :=
  match o with
  | options_undefined => VUndefined
  | options_null => VNull
  | options_object fields => VObj fields
  end.

(** The part of an express request that the strategy reads. *)
Record Request : Type := {
  query : value;
  body : value;
  headers : value
}.

Definition request_value (req : Request) : value :=
  VObj [("query", query req); ("body", body req); ("headers", headers req)].

Definition userinfo_url : string :=
  "https://www.googleapis.com/oauth2/v2/userinfo".

(** ** The class GoogleTokenStrategy *)

Section GoogleTokenStrategy.

(** [JSON.parse] of the runtime: the parsed value, or the exception. *)
Variable JSON_parse : value -> completion value.

(** The constructor of passport-oauth's [OAuth2Strategy]. *)
Variable OAuth2Strategy :
  list (string * value) -> verify_fn -> completion base_fields.

(** [constructor(options, verify)], lines 40-49.  When [options] is an
    object, [_options] is that same object; the two assignments write keys
    that the two reads do not read back (see [lookup_assign_other]), so the
    reads are taken from the argument as it was passed. *)
Definition constructor (options : options_arg) (verify : verify_fn)
  : M Strategy :=
  let _options :=                                   (* options || {} *)
    match options with
    | options_object fields => fields
    | _ => []
    end in
  authorizationURL <-
    js_or (get_prop (options_value options) "authorizationURL")
          (ret (VStr "https://accounts.google.com/o/oauth2/auth")) ;;
  let _options := assign "authorizationURL" authorizationURL _options in
  tokenURL <-
    js_or (get_prop (options_value options) "tokenURL")
          (ret (VStr "https://accounts.google.com/o/oauth2/token")) ;;
  let _options := assign "tokenURL" tokenURL _options in
  base <- lift (OAuth2Strategy _options verify) ;;
  ret {| options := VObj _options;
         verify := verify;
         name := "google-token";
         _oauth2 := base_oauth2 base;
         _passReqToCallback := base_passReqToCallback base;
         _skipUserProfile := base_skipUserProfile base |}.

(** The object literal of lines 119-133. *)
Definition build_profile (json body : value) : M value :=
  id <- get_prop json "id" ;;
  displayName <- get_prop json "name" ;;
  familyName <- get_prop json "family_name" ;;
  givenName <- get_prop json "given_name" ;;
  middleName <- get_prop json "middle_name" ;;
  gender <- get_prop json "gender" ;;
  email <- get_prop json "email" ;;
  picture <- get_prop json "picture" ;;
  ret (VObj [("provider", VStr "google");
             ("id", id);
             ("displayName", displayName);
             ("name", VObj [("familyName", familyName);
                            ("givenName", givenName);
                            ("middleName", middleName)]);
             ("gender", gender);
             ("emails", VArr [VObj [("value", email)]]);
             ("photos", VArr [VObj [("value", picture)]]);
             ("_json", json);
             ("_raw", body)]).

(** The arrow function [(err, body) => ...] of lines 111-139.  [done] is
    called as [done(...)], so it runs with [this] undefined; the call
    [done(null, profile)] stands inside the [try] block. *)
Definition userProfile_response (done : function2) : arrow2 :=
  fun err body =>
    if truthy err then
      done this_undefined
           (InternalOAuthError "failed to fetch user profile" err) VUndefined
    else
      try_catch
        (json <- lift (JSON_parse body) ;;
         profile <- build_profile json body ;;
         done this_undefined VNull profile)
        (fun e => done this_undefined e VUndefined).

(** [userProfile(accessToken, done)], lines 110-140. *)
Definition userProfile (self : Strategy) (accessToken : value)
    (done : function2) : M unit :=
  oauth2_get (_oauth2 self) userinfo_url accessToken
             (userProfile_response done).

(** The arrow function [(err, skip) => ...] of lines 151-161. *)
Definition loadUserProfile_decided (self : Strategy) (accessToken : value)
    (done : function2) : arrow2 :=
  fun err skip =>
    if truthy err then done this_undefined err VUndefined
    else if negb (truthy skip) then userProfile self accessToken done
    else done this_undefined VNull VUndefined.

(** [loadUserProfile(accessToken, done)], lines 149-169. *)
Definition loadUserProfile (self : Strategy) (accessToken : value)
    (done : function2) : M unit :=
  match _skipUserProfile self with
  | skip_function f =>
      if (1 <? fn_length f)%nat then
        fn_call f [accessToken]
                (Some (loadUserProfile_decided self accessToken done)) ;;;
        ret tt
      else
        skip <- fn_call f [] None ;;
        if negb (truthy skip) then userProfile self accessToken done
        else done this_undefined VNull VUndefined
  | skip_value skip =>
      if negb (truthy skip) then userProfile self accessToken done
      else done this_undefined VNull VUndefined
  end.

(** [function verified(err, user, info)], lines 76-86. *)
Definition verified : function3 :=
  fun this err user info =>
    if truthy err then this_get this "error" (emit (Error err))
    else if negb (truthy user) then this_get this "fail" (emit (Fail info))
    else this_get this "success" (emit (Success user info)).

(** [this.verify(args..., verified)] *)
Definition call_verify (self : Strategy) (args : list value) : M unit :=
  emit (Verify args) ;;; verify self args verified.

(** The [function (err, profile) { ... }] that [authenticate] passes to
    [loadUserProfile], lines 71-93. *)
Definition authenticate_loaded (self : Strategy) (req : Request)
    (accessToken refreshToken : value) : function2 :=
  fun this err profile =>
    if truthy err then this_get this "fail" (emit (Fail err))
    else
      this_get this "_passReqToCallback"
        (if truthy (_passReqToCallback self) then
           call_verify self
             [request_value req; accessToken; refreshToken; profile]
         else
           call_verify self [accessToken; refreshToken; profile]).

(** [req.body.k || req.query.k || req.headers.k], lines 68 and 69. *)
Definition token_of (req : Request) (k : string) : M value :=
  js_or (js_or (get_prop (body req) k) (get_prop (query req) k))
        (get_prop (headers req) k).

(** [req.query && req.query.error], line 58. *)
Definition error_parameter (req : Request) : M value :=
  js_and (ret (query req)) (get_prop (query req) "error").

(** [authenticate(req)], lines 57-94.  The host framework calls it as a
    method, so [this] is the strategy here; the function handed to
    [loadUserProfile] is called by it as [done(...)]. *)
Definition authenticate (self : Strategy) (req : Request) : M unit :=
  error_param <- error_parameter req ;;
  if truthy error_param then emit (Fail VUndefined)
  else if negb (truthy (body req)) then emit (Fail VUndefined)
  else
    accessToken <- token_of req "access_token" ;;
    refreshToken <- token_of req "refresh_token" ;;
    loadUserProfile self accessToken
                    (authenticate_loaded self req accessToken refreshToken).

End GoogleTokenStrategy.

(** A request carries an [error] query parameter when the guard of line 58
    holds: there is a query object and its [error] member is truthy. *)
Definition carries_error (req : Request) : bool :=
  truthy (query req) && truthy (prop (query req) "error").

(** ** A runtime and some instances to evaluate the class on *)

(** A parser for one fragment of JSON: an object whose members are
    strings without escape sequences, with optional blanks between the
    tokens.  A repeated key keeps its last value, as [JSON.parse] does.
    Every other text is refused. *)
Inductive scan_state : Type :=
| AtStart
| AfterOpen
| InKey (key : string)
| AfterKey (key : string)
| BeforeValue (key : string)
| InValue (key text : string)
| AfterValue
| BeforeKey
| AtEnd.

Definition is_blank (c : ascii) : bool :=
  (c =? " ")%char || (c =? "009")%char || (c =? "010")%char
  || (c =? "013")%char.

Definition quote : ascii := ascii_of_nat 34.
Definition backslash : ascii := ascii_of_nat 92.

Definition string_char (c : ascii) : bool :=
  negb (c =? quote)%char && negb (c =? backslash)%char
  && (32 <=? nat_of_ascii c)%nat.

Definition snoc (s : string) (c : ascii) : string := s ++ String c EmptyString.

Fixpoint scan (st : scan_state) (fields : list (string * value))
    (text : string) : option (list (string * value)) :=
  match text with
  | EmptyString => match st with AtEnd => Some fields | _ => None end
  | String c rest =>
      match st with
      | AtStart =>
          if is_blank c then scan AtStart fields rest
          else if (c =? "{")%char then scan AfterOpen fields rest
          else None
      | AfterOpen =>
          if is_blank c then scan AfterOpen fields rest
          else if (c =? quote)%char then scan (InKey EmptyString) fields rest
          else if (c =? "}")%char then scan AtEnd fields rest
          else None
      | InKey key =>
          if (c =? quote)%char then scan (AfterKey key) fields rest
          else if string_char c then scan (InKey (snoc key c)) fields rest
          else None
      | AfterKey key =>
          if is_blank c then scan (AfterKey key) fields rest
          else if (c =? ":")%char then scan (BeforeValue key) fields rest
          else None
      | BeforeValue key =>
          if is_blank c then scan (BeforeValue key) fields rest
          else if (c =? quote)%char then scan (InValue key EmptyString) fields rest
          else None
      | InValue key val =>
          if (c =? quote)%char then
            scan AfterValue (assign key (VStr val) fields) rest
          else if string_char c then scan (InValue key (snoc val c)) fields rest
          else None
      | AfterValue =>
          if is_blank c then scan AfterValue fields rest
          else if (c =? ",")%char then scan BeforeKey fields rest
          else if (c =? "}")%char then scan AtEnd fields rest
          else None
      | BeforeKey =>
          if is_blank c then scan BeforeKey fields rest
          else if (c =? quote)%char then scan (InKey EmptyString) fields rest
          else None
      | AtEnd =>
          if is_blank c then scan AtEnd fields rest else None
      end
  end.

Definition SyntaxError (message : string) : value :=
  VObj [("name", VStr "SyntaxError"); ("message", VStr message)].

(** The runtime of the examples: its parser knows the fragment above. *)
Definition flat_parse (text : value) : completion value :=
  match text with
  | VStr s =>
      match scan AtStart [] s with
      | Some fields => Normal (VObj fields)
      | None => Throw (SyntaxError "Unexpected token in JSON")
      end
  | _ => Throw (SyntaxError "Unexpected token in JSON")
  end.

(** A JSON string literal and a member [key:value] with string value. *)
Definition quoted (s : string) : string :=
  String quote s ++ String quote EmptyString.

Definition member (key val : string) : string :=
  quoted key ++ ":" ++ quoted val.

(** The response body of the example of section 8 of the specification. *)
Definition ada_body : string :=
  Eval cbv in
  "{" ++ member "id" "42" ++ "," ++ member "name" "Ada Lovelace" ++ ","
      ++ member "family_name" "Lovelace" ++ "," ++ member "given_name" "Ada"
      ++ "," ++ member "email" "ada@example.com" ++ ","
      ++ member "picture" "http://x/y.png" ++ "}".

Definition ada_json : value :=
  VObj [("id", VStr "42");
        ("name", VStr "Ada Lovelace");
        ("family_name", VStr "Lovelace");
        ("given_name", VStr "Ada");
        ("email", VStr "ada@example.com");
        ("picture", VStr "http://x/y.png")].

(** A base-class constructor for the examples: it requires a client id,
    as passport-oauth does, and configures nothing else. *)
Definition silent_client : OAuth2 := {| respond := fun _ _ => None |}.

Definition plain_base (_options : list (string * value)) (_ : verify_fn)
  : completion base_fields :=
  if truthy (lookup "clientID" _options) then
    Normal {| base_oauth2 := silent_client;
              base_passReqToCallback := lookup "passReqToCallback" _options;
              base_skipUserProfile := skip_value VUndefined |}
  else Throw (TypeError "OAuth2Strategy requires a clientID option").

(** Provider behaviours. *)
Definition answering (err body : value) : OAuth2 :=
  {| respond := fun _ _ => Some (err, body) |}.

Definition transport_error : value :=
  VObj [("statusCode", VNum 401); ("data", VStr "Invalid Credentials")].

(** Verify callbacks: one that accepts a fixed user through [done(null,
    user)], one that rejects through [done(null, false, info)], one that
    reports an error through [done(err)]. *)
Definition user1 : value := VObj [("id", VNum 1)].
Definition denied : value := VObj [("message", VStr "denied")].

Definition accepting_verify : verify_fn :=
  fun _ done => done this_undefined VNull user1 VUndefined.

Definition rejecting_verify : verify_fn :=
  fun _ done => done this_undefined VNull (VBool false) denied.

(** Skip settings that always answer true, in the three supported forms. *)
Definition skip_true : skip_setting := skip_value (VBool true).

Definition skip_sync_true : skip_setting :=
  skip_function {| fn_length := 0;
                   fn_call := fun _ _ => ret (VBool true) |}.

Definition skip_async_true : skip_setting :=
  skip_function
    {| fn_length := 2;
       fn_call := fun _ cb =>
         match cb with
         | Some done => done VNull (VBool true) ;;; ret VUndefined
         | None => ret VUndefined
         end |}.

(** A skip predicate that fails: [done(err)]. *)
Definition skip_async_failing (err : value) : skip_setting :=
  skip_function
    {| fn_length := 2;
       fn_call := fun _ cb =>
         match cb with
         | Some done => done err VUndefined ;;; ret VUndefined
         | None => ret VUndefined
         end |}.

Definition strategy_of (client : OAuth2) (skip : skip_setting)
    (pass_req : value) (v : verify_fn) : Strategy :=
  {| options := VObj [("clientID", VStr "123-456-789");
                      ("clientSecret", VStr "shhh-its-a-secret")];
     verify := v;
     name := "google-token";
     _oauth2 := client;
     _passReqToCallback := pass_req;
     _skipUserProfile := skip |}.

(** Requests. *)
Definition token_request : Request :=
  {| query := VObj [];
     body := VObj [("access_token", VStr "tok")];
     headers := VObj [] |}.

(** The token in the body, the query string and the headers at once. *)
Definition everywhere_request : Request :=
  {| query := VObj [("access_token", VStr "from-query");
                    ("refresh_token", VStr "refresh-from-query")];
     body := VObj [("access_token", VStr "from-body")];
     headers := VObj [("access_token", VStr "from-headers");
                      ("refresh_token", VStr "refresh-from-headers")] |}.

(** The token in the headers only. *)
Definition header_request : Request :=
  {| query := VObj [];
     body := VObj [("grant", VStr "token")];
     headers := VObj [("access_token", VStr "from-headers")] |}.

(** A request with an OAuth error in its query string. *)
Definition error_request : Request :=
  {| query := VObj [("error", VStr "access_denied")];
     body := VObj [("access_token", VStr "tok")];
     headers := VObj [] |}.

(** A request with a parsed body and no query object. *)
Definition queryless_request : Request :=
  {| query := VUndefined;
     body := VObj [("grant", VStr "token")];
     headers := VObj [("access_token", VStr "from-headers")] |}.

(** The normalized profile of the example of section 8. *)
Definition ada_profile : value :=
  VObj [("provider", VStr "google");
        ("id", VStr "42");
        ("displayName", VStr "Ada Lovelace");
        ("name", VObj [("familyName", VStr "Lovelace");
                       ("givenName", VStr "Ada");
                       ("middleName", VUndefined)]);
        ("gender", VUndefined);
        ("emails", VArr [VObj [("value", VStr "ada@example.com")]]);
        ("photos", VArr [VObj [("value", VStr "http://x/y.png")]]);
        ("_json", ada_json);
        ("_raw", VStr ada_body)].

(** A [done] that does nothing with what it is given. *)
Definition ignoring_done : function2 := fun _ _ _ => ret tt.

(** Strategies for the examples: the provider refuses the token; the
    provider answers with a page that is not JSON; the profile is skipped
    in one of the three ways, with a verify callback of choice. *)
Definition refused_strategy : Strategy :=
  strategy_of (answering transport_error VUndefined) (skip_value VUndefined)
              VUndefined accepting_verify.

Definition garbled_strategy : Strategy :=
  strategy_of (answering VNull (VStr "<html>")) (skip_value VUndefined)
              VUndefined accepting_verify.

Definition skipping_strategy (skip : skip_setting) (v : verify_fn)
  : Strategy :=
  strategy_of silent_client skip VUndefined v.

(** A parsed response with an [id] and nothing else. *)
Definition bare_json : value := VObj [("id", VStr "7")].

(** A request whose [error] parameter and body token are empty strings. *)
Definition empty_values_request : Request :=
  {| query := VObj [("error", VStr EmptyString);
                    ("access_token", VStr "from-query")];
     body := VObj [("access_token", VStr EmptyString)];
     headers := VObj [] |}.

(** Further requests: no parsed body; a body without any token; the access
    token in the body and no query object; no headers object. *)
Definition bodyless_request : Request :=
  {| query := VObj [("state", VStr "xyz")];
     body := VUndefined;
     headers := VObj [("access_token", VStr "from-headers")] |}.

Definition tokenless_request : Request :=
  {| query := VObj [];
     body := VObj [("grant", VStr "token")];
     headers := VObj [] |}.

Definition body_token_queryless_request : Request :=
  {| query := VUndefined;
     body := VObj [("access_token", VStr "tok")];
     headers := VObj [("refresh_token", VStr "refresh-from-headers")] |}.

Definition headerless_request : Request :=
  {| query := VObj [];
     body := VObj [("grant", VStr "token")];
     headers := VUndefined |}.

(** A runtime that also reads the JSON text [null]. *)
Definition null_aware_parse (text : value) : completion value :=
  match text with
  | VStr "null" => Normal VNull
  | _ => flat_parse text
  end.

(** A [done] that reports what it was given and then throws. *)
Definition late : value := VStr "late".

Definition throwing_done : function2 :=
  fun _ err _ => emit (Fail err) ;;; throw late.

(** Skip predicates: a synchronous one that throws, and an asynchronous one
    that completes with [done(err, skip)]. *)
Definition skip_sync_throwing (e : value) : skip_setting :=
  skip_function {| fn_length := 1; fn_call := fun _ _ => throw e |}.

Definition skip_async_answering (err skip : value) : skip_setting :=
  skip_function
    {| fn_length := 2;
       fn_call := fun _ cb =>
         match cb with
         | Some done => done err skip ;;; ret VUndefined
         | None => ret VUndefined
         end |}.

(** ** Laws of the monad and of the JavaScript operators *)

Lemma bind_ret_l {A B} (a : A) (f : A -> M B) : bind (ret a) f = f a.
Proof. unfold bind, ret. now destruct (f a). Qed.

Lemma bind_throw_l {A B} (e : value) (f : A -> M B) :
  bind (throw e) f = throw e.
Proof. reflexivity. Qed.

Lemma bind_ret_r {A} (m : M A) : bind m ret = m.
Proof.
  destruct m as [tr [a | e]]; cbn; [now rewrite app_nil_r | reflexivity].
Qed.

Lemma bind_assoc {A B C} (m : M A) (f : A -> M B) (g : B -> M C) :
  bind (bind m f) g = bind m (fun a => bind (f a) g).
Proof.
  destruct m as [tr [a | e]]; cbn; [| reflexivity].
  destruct (f a) as [tr1 [b | e]]; cbn; [| reflexivity].
  destruct (g b) as [tr2 c]. now rewrite app_assoc.
Qed.

Lemma bind_lift_normal {A B} (a : A) (f : A -> M B) :
  bind (lift (Normal a)) f = f a.
Proof. apply bind_ret_l. Qed.

Lemma bind_lift_throw {A B} (e : value) (f : A -> M B) :
  bind (lift (Throw e)) f = throw e.
Proof. reflexivity. Qed.

Lemma try_catch_throw {A} (e : value) (handler : value -> M A) :
  try_catch (throw e) handler = handler e.
Proof. unfold try_catch, throw. now destruct (handler e). Qed.

Lemma try_catch_normal {A} (tr : list event) (a : A)
    (handler : value -> M A) :
  try_catch (tr, Normal a) handler = (tr, Normal a).
Proof. reflexivity. Qed.

Lemma truthy_not_nullish (v : value) : truthy v = true -> nullish v = false.
Proof. destruct v; cbn; congruence. Qed.

Lemma nullish_not_truthy (v : value) : nullish v = true -> truthy v = false.
Proof. destruct v; cbn; congruence. Qed.

Lemma get_prop_defined (o : value) (k : string) :
  nullish o = false -> get_prop o k = ret (prop o k).
Proof. unfold get_prop. now intros ->. Qed.

Lemma get_prop_nullish (o : value) (k : string) :
  nullish o = true -> get_prop o k = throw (cannot_read o k).
Proof. unfold get_prop. now intros ->. Qed.

Lemma js_or_ret (v : value) (b : M value) :
  js_or (ret v) b = if truthy v then ret v else b.
Proof. unfold js_or. apply bind_ret_l. Qed.

Lemma js_and_ret (v : value) (b : M value) :
  js_and (ret v) b = if truthy v then b else ret v.
Proof. unfold js_and. apply bind_ret_l. Qed.

Lemma js_or_throw (e : value) (b : M value) : js_or (throw e) b = throw e.
Proof. reflexivity. Qed.

Create Rewrite HintDb js.
#[local] Hint Rewrite @bind_ret_l @bind_throw_l @bind_lift_normal
  @bind_lift_throw @try_catch_throw js_or_ret js_and_ret js_or_throw : js.

Ltac js_simpl := autorewrite with js; cbn [negb].

(** A key that is not among the fields reads as [undefined]. *)
Lemma lookup_missing (k : string) (fields : list (string * value)) :
  has_key k fields = false -> lookup k fields = VUndefined.
Proof.
  induction fields as [| [k' v] rest IH]; cbn; [reflexivity |].
  destruct (k' =? k); cbn; [discriminate | exact IH].
Qed.



(** ** Properties of the class *)

Section Properties.

Variable JSON_parse : value -> completion value.
Variable OAuth2Strategy :
  list (string * value) -> verify_fn -> completion base_fields.

Lemma error_parameter_value (req : Request) :
  error_parameter req
  = ret (if truthy (query req) then prop (query req) "error"
         else query req).
Proof.
  unfold error_parameter. js_simpl.
  destruct (truthy (query req)) eqn:Hq; [| reflexivity].
  now rewrite get_prop_defined by now apply truthy_not_nullish.
Qed.

(** How [authenticate] proceeds once both guards are passed and the two
    tokens are read. *)
Lemma authenticate_proceeds (self : Strategy) (req : Request)
    (accessToken refreshToken : value) :
  carries_error req = false ->
  truthy (body req) = true ->
  token_of req "access_token" = ret accessToken ->
  token_of req "refresh_token" = ret refreshToken ->
  authenticate JSON_parse self req
  = loadUserProfile JSON_parse self accessToken
      (authenticate_loaded self req accessToken refreshToken).
Proof.
  intros He Hb Ha Hr. unfold authenticate.
  rewrite error_parameter_value. js_simpl.
  unfold carries_error in He.
  assert (Hg : truthy (if truthy (query req) then prop (query req) "error"
                       else query req) = false).
  { destruct (truthy (query req)) eqn:Hq; [exact He | exact Hq]. }
  rewrite Hg, Hb, Ha. js_simpl. rewrite Hr. now js_simpl.
Qed.

(** C3: for every request and for each of the keys [access_token] and
    [refresh_token] on its own, the token is taken from the body, then the
    query string, then the headers.  A token appears in a place when the
    member read there is truthy.  When it appears in the body the body
    value is used, whatever the query string holds; when the body has
    none, the query value is used; when neither has one, the header value
    is used. *)
Theorem C3_token_priority (req : Request) (k : string) :
  nullish (body req) = false ->
  (truthy (prop (body req) k) = true ->
   token_of req k = ret (prop (body req) k))
  /\ (truthy (prop (body req) k) = false ->
      nullish (query req) = false ->
      truthy (prop (query req) k) = true ->
      token_of req k = ret (prop (query req) k))
  /\ (truthy (prop (body req) k) = false ->
      nullish (query req) = false ->
      truthy (prop (query req) k) = false ->
      nullish (headers req) = false ->
      token_of req k = ret (prop (headers req) k)).
Proof.
  intros Hbody. unfold token_of.
  rewrite (get_prop_defined (body req)) by assumption.
  repeat split.
  - intros Hb. js_simpl. rewrite Hb. js_simpl. now rewrite Hb.
  - intros Hb Hquery Hq. js_simpl. rewrite Hb.
    rewrite (get_prop_defined (query req)) by assumption.
    js_simpl. now rewrite Hq.
  - intros Hb Hquery Hq Hheaders. js_simpl. rewrite Hb.
    rewrite (get_prop_defined (query req)) by assumption.
    js_simpl. rewrite Hq. now apply get_prop_defined.
Qed.

(** C6: for every request that carries an [error] query parameter,
    [authenticate] signals failure with no reason payload and does nothing
    else: the run consists of the single call [this.fail()], so no token is
    read, no network call is issued and the verify callback is not
    called. *)
Theorem C6_error_parameter_fails (self : Strategy) (req : Request) :
  carries_error req = true ->
  authenticate JSON_parse self req = ([Fail VUndefined], Normal tt).
Proof.
  intros He. apply andb_prop in He as [Hq He].
  unfold authenticate. rewrite error_parameter_value, Hq. js_simpl.
  now rewrite He.
Qed.

(** C9: for every request whose parsed body is present but holds no truthy
    [access_token], [authenticate] goes on to read [access_token] from the
    query object; when the request has no query object, that read throws a
    TypeError out of [authenticate] before anything is signalled: the guard
    on [req.query] of line 58 covers the [error] check only. *)
Theorem C9_missing_query_throws (self : Strategy) (req : Request) :
  truthy (body req) = true ->
  truthy (prop (body req) "access_token") = false ->
  nullish (query req) = true ->
  error_parameter req = ret (query req)
  /\ authenticate JSON_parse self req
     = ([], Throw (cannot_read (query req) "access_token")).
Proof.
  intros Hb Ht Hq.
  assert (Hfalsy : truthy (query req) = false)
    by now apply nullish_not_truthy.
  assert (He : error_parameter req = ret (query req))
    by now rewrite error_parameter_value, Hfalsy.
  split; [exact He |].
  unfold authenticate. rewrite He. js_simpl. rewrite Hfalsy, Hb. cbn [negb].
  unfold token_of.
  rewrite (get_prop_defined (body req)) by now apply truthy_not_nullish.
  js_simpl. rewrite Ht.
  rewrite (get_prop_nullish (query req)) by assumption.
  now js_simpl.
Qed.

(** C8: a constructor call whose options argument is [undefined] or [null]
    throws: the local [_options] is defaulted to a fresh object, but
    [options.authorizationURL] is read from the argument itself, before the
    base class is reached. *)
Theorem C8_constructor_needs_options (verify : verify_fn) :
  constructor OAuth2Strategy options_undefined verify
  = ([], Throw (cannot_read VUndefined "authorizationURL"))
  /\ constructor OAuth2Strategy options_null verify
     = ([], Throw (cannot_read VNull "authorizationURL")).
Proof. split; reflexivity. Qed.


End Properties.

(** The three places of C3, on concrete requests. *)
Lemma C3_token_priority_witness :
  token_of everywhere_request "access_token" = ret (VStr "from-body")
  /\ token_of everywhere_request "refresh_token"
     = ret (VStr "refresh-from-query")
  /\ token_of header_request "access_token" = ret (VStr "from-headers").
Proof.
  split; [| split].
  - apply (proj1 (C3_token_priority everywhere_request "access_token"
                    eq_refl)).
    reflexivity.
  - apply (proj1 (proj2 (C3_token_priority everywhere_request
                           "refresh_token" eq_refl))); reflexivity.
  - apply (proj2 (proj2 (C3_token_priority header_request "access_token"
                           eq_refl))); reflexivity.
Defined.

Lemma C6_error_parameter_fails_witness :
  authenticate flat_parse
    (strategy_of (answering VNull (VStr ada_body)) (skip_value VUndefined)
                 VUndefined accepting_verify)
    error_request
  = ([Fail VUndefined], Normal tt).
Proof. apply C6_error_parameter_fails. reflexivity. Defined.

Lemma C9_missing_query_throws_witness :
  authenticate flat_parse
    (strategy_of (answering VNull (VStr ada_body)) (skip_value VUndefined)
                 VUndefined accepting_verify)
    queryless_request
  = ([], Throw (cannot_read VUndefined "access_token")).
Proof.
  apply (proj2 (C9_missing_query_throws flat_parse _ queryless_request
                  eq_refl eq_refl eq_refl)).
Defined.

(** ** Properties of the profile fetch *)

Section ProfileProperties.

Variable JSON_parse : value -> completion value.

Lemma build_profile_defined (json body : value) :
  nullish json = false ->
  build_profile json body
  = ret (VObj [("provider", VStr "google");
               ("id", prop json "id");
               ("displayName", prop json "name");
               ("name", VObj [("familyName", prop json "family_name");
                              ("givenName", prop json "given_name");
                              ("middleName", prop json "middle_name")]);
               ("gender", prop json "gender");
               ("emails", VArr [VObj [("value", prop json "email")]]);
               ("photos", VArr [VObj [("value", prop json "picture")]]);
               ("_json", json);
               ("_raw", body)]).
Proof.
  intros Hjson. unfold build_profile.
  rewrite !get_prop_defined by assumption. now js_simpl.
Qed.

Lemma build_profile_nullish (json body : value) :
  nullish json = true ->
  build_profile json body = throw (cannot_read json "id").
Proof.
  intros Hjson. unfold build_profile.
  now rewrite (get_prop_nullish json "id") by assumption.
Qed.

(** What [userProfile] does with the answer of the provider. *)
Lemma userProfile_answered (self : Strategy) (accessToken err body : value)
    (done : function2) :
  respond (_oauth2 self) userinfo_url accessToken = Some (err, body) ->
  userProfile JSON_parse self accessToken done
  = (emit (OAuthGet userinfo_url accessToken) ;;;
     userProfile_response JSON_parse done err body).
Proof. intros Hr. unfold userProfile, oauth2_get. now rewrite Hr. Qed.

(** C2: when the provider answers with the body
    [{"id":"42","name":"Ada Lovelace","family_name":"Lovelace",
    "given_name":"Ada","email":"ada@example.com","picture":"http://x/y.png"}],
    which [JSON.parse] reads as the object [ada_json], [userProfile] hands
    [done(null, profile)] the normalized profile [ada_profile]: provider
    "google", id "42", displayName "Ada Lovelace", name.familyName
    "Lovelace", name.givenName "Ada", emails [[{value: "ada@example.com"}]]
    and photos [[{value: "http://x/y.png"}]].  (The call stands in the
    [try] block, so an exception of [done] is handed to [done] again.) *)
Theorem C2_ada_profile (self : Strategy) (accessToken err : value)
    (done : function2) :
  respond (_oauth2 self) userinfo_url accessToken
  = Some (err, VStr ada_body) ->
  truthy err = false ->
  JSON_parse (VStr ada_body) = Normal ada_json ->
  userProfile JSON_parse self accessToken done
  = (emit (OAuthGet userinfo_url accessToken) ;;;
     try_catch (done this_undefined VNull ada_profile)
               (fun e => done this_undefined e VUndefined))
  /\ prop ada_profile "provider" = VStr "google"
  /\ prop ada_profile "id" = VStr "42"
  /\ prop ada_profile "displayName" = VStr "Ada Lovelace"
  /\ prop (prop ada_profile "name") "familyName" = VStr "Lovelace"
  /\ prop (prop ada_profile "name") "givenName" = VStr "Ada"
  /\ prop ada_profile "emails" = VArr [VObj [("value", VStr "ada@example.com")]]
  /\ prop ada_profile "photos" = VArr [VObj [("value", VStr "http://x/y.png")]].
Proof.
  intros Hr Herr Hparse. split; [| now repeat split].
  rewrite (userProfile_answered _ _ _ _ _ Hr).
  unfold userProfile_response. rewrite Herr, Hparse. js_simpl.
  now rewrite build_profile_defined by reflexivity; js_simpl.
Qed.

(** C7: [userProfile] tells its two error cases apart.  On a transport or
    provider error it completes with [done(wrapped)], where [wrapped] is an
    InternalOAuthError with the fixed message "failed to fetch user profile"
    and the cause as its [oauthError]; on a body that [JSON.parse] refuses
    it completes with [done(e)], where [e] is the exception of the parser
    itself. *)
Theorem C7_error_discrimination (self : Strategy)
    (accessToken err body : value) (done : function2) :
  respond (_oauth2 self) userinfo_url accessToken = Some (err, body) ->
  (truthy err = true ->
   let wrapped := InternalOAuthError "failed to fetch user profile" err in
   userProfile JSON_parse self accessToken done
   = (emit (OAuthGet userinfo_url accessToken) ;;;
      done this_undefined wrapped VUndefined)
   /\ prop wrapped "name" = VStr "InternalOAuthError"
   /\ prop wrapped "message" = VStr "failed to fetch user profile"
   /\ prop wrapped "oauthError" = err)
  /\ (forall e : value,
      truthy err = false ->
      JSON_parse body = Throw e ->
      userProfile JSON_parse self accessToken done
      = (emit (OAuthGet userinfo_url accessToken) ;;;
         done this_undefined e VUndefined)).
Proof.
  intros Hr. rewrite (userProfile_answered _ _ _ _ _ Hr).
  unfold userProfile_response. split.
  - intros Herr. rewrite Herr. now repeat split.
  - intros e Herr Hparse. rewrite Herr, Hparse. now js_simpl.
Qed.

(** C10: whenever a profile is built from a parsed response, its [emails]
    and [photos] are arrays of exactly one wrapper record, holding
    [json.email] and [json.picture]; when the parsed object has no [email]
    or no [picture] key, the one record holds [undefined], and the array is
    not empty.  A profile is built from every parsed value but [null]
    (and [undefined], which [JSON.parse] does not return), whose members
    cannot be read. *)
Theorem C10_emails_photos_singletons (json body : value) :
  match build_profile json body with
  | (_, Normal profile) =>
      prop profile "emails" = VArr [VObj [("value", prop json "email")]]
      /\ prop profile "photos" = VArr [VObj [("value", prop json "picture")]]
      /\ (forall fields, json = VObj fields ->
          has_key "email" fields = false ->
          prop profile "emails" = VArr [VObj [("value", VUndefined)]])
      /\ (forall fields, json = VObj fields ->
          has_key "picture" fields = false ->
          prop profile "photos" = VArr [VObj [("value", VUndefined)]])
  | (_, Throw _) => nullish json = true
  end.
Proof.
  destruct (nullish json) eqn:Hjson.
  - now rewrite build_profile_nullish by assumption.
  - rewrite build_profile_defined by assumption. cbn.
    repeat split; intros fields -> Hkey; cbn; now rewrite lookup_missing.
Qed.

End ProfileProperties.

Lemma C2_ada_profile_witness :
  userProfile flat_parse
    (strategy_of (answering VNull (VStr ada_body)) (skip_value VUndefined)
                 VUndefined accepting_verify)
    (VStr "tok") ignoring_done
  = ([OAuthGet userinfo_url (VStr "tok")], Normal tt).
Proof.
  exact (proj1 (C2_ada_profile flat_parse
                  (strategy_of (answering VNull (VStr ada_body))
                               (skip_value VUndefined) VUndefined
                               accepting_verify)
                  (VStr "tok") VNull ignoring_done
                  eq_refl eq_refl eq_refl)).
Defined.

Lemma C7_error_discrimination_witness :
  userProfile flat_parse
    (strategy_of (answering transport_error VUndefined)
                 (skip_value VUndefined) VUndefined accepting_verify)
    (VStr "tok") (fun _ err _ => emit (Fail err))
  = ([OAuthGet userinfo_url (VStr "tok");
      Fail (InternalOAuthError "failed to fetch user profile"
                               transport_error)],
     Normal tt)
  /\ userProfile flat_parse
       (strategy_of (answering VNull (VStr "<html>"))
                    (skip_value VUndefined) VUndefined accepting_verify)
       (VStr "tok") (fun _ err _ => emit (Fail err))
     = ([OAuthGet userinfo_url (VStr "tok");
         Fail (SyntaxError "Unexpected token in JSON")],
        Normal tt).
Proof.
  split.
  - exact (proj1 (proj1 (C7_error_discrimination flat_parse
                           (strategy_of (answering transport_error VUndefined)
                                        (skip_value VUndefined) VUndefined
                                        accepting_verify)
                           (VStr "tok") transport_error VUndefined
                           (fun _ err _ => emit (Fail err)) eq_refl)
                        eq_refl)).
  - exact (proj2 (C7_error_discrimination flat_parse
                    (strategy_of (answering VNull (VStr "<html>"))
                                 (skip_value VUndefined) VUndefined
                                 accepting_verify)
                    (VStr "tok") VNull (VStr "<html>")
                    (fun _ err _ => emit (Fail err)) eq_refl)
                 (SyntaxError "Unexpected token in JSON") eq_refl eq_refl).
Defined.

Lemma C10_emails_photos_singletons_witness :
  match build_profile bare_json (VStr "raw") with
  | (_, Normal profile) =>
      prop profile "emails" = VArr [VObj [("value", VUndefined)]]
      /\ prop profile "photos" = VArr [VObj [("value", VUndefined)]]
  | (_, Throw _) => False
  end.
Proof.
  generalize (C10_emails_photos_singletons bare_json (VStr "raw")).
  cbn. intros (_ & _ & Hemail & Hpicture).
  split; [exact (Hemail _ eq_refl eq_refl)
         | exact (Hpicture _ eq_refl eq_refl)].
Defined.

(** ** The functions called without a receiver *)

Section Receivers.

Variable JSON_parse : value -> completion value.

(** [loadUserProfile] with a skip setting that answers true, in each of
    its three forms: the provider is not asked, and [done(null)] is the one
    thing that happens, so the profile parameter of [done] is
    [undefined]. *)
Lemma loadUserProfile_skip_value (self : Strategy) (accessToken v : value)
    (done : function2) :
  _skipUserProfile self = skip_value v ->
  truthy v = true ->
  loadUserProfile JSON_parse self accessToken done
  = done this_undefined VNull VUndefined.
Proof. intros Hs Hv. unfold loadUserProfile. now rewrite Hs, Hv. Qed.

Lemma loadUserProfile_skip_sync (self : Strategy) (accessToken v : value)
    (f : js_function) (done : function2) :
  _skipUserProfile self = skip_function f ->
  (fn_length f <= 1)%nat ->
  fn_call f [] None = ret v ->
  truthy v = true ->
  loadUserProfile JSON_parse self accessToken done
  = done this_undefined VNull VUndefined.
Proof.
  intros Hs Hlen Hcall Hv. unfold loadUserProfile. rewrite Hs.
  replace (1 <? fn_length f)%nat with false
    by (symmetry; apply Nat.ltb_ge; exact Hlen).
  rewrite Hcall. js_simpl. now rewrite Hv.
Qed.

Lemma loadUserProfile_skip_async (self : Strategy) (accessToken v r : value)
    (f : js_function) (done : function2) :
  _skipUserProfile self = skip_function f ->
  (1 < fn_length f)%nat ->
  (forall cb : arrow2,
     fn_call f [accessToken] (Some cb) = (cb VNull v ;;; ret r)) ->
  truthy v = true ->
  loadUserProfile JSON_parse self accessToken done
  = done this_undefined VNull VUndefined.
Proof.
  intros Hs Hlen Hcall Hv. unfold loadUserProfile. rewrite Hs.
  replace (1 <? fn_length f)%nat with true
    by (symmetry; apply Nat.ltb_lt; exact Hlen).
  rewrite Hcall, bind_assoc. unfold loadUserProfile_decided.
  cbn [truthy]. rewrite Hv. cbn [negb].
  destruct (done this_undefined VNull VUndefined) as [tr [[] | e]]; cbn;
    now rewrite ?app_nil_r.
Qed.

(** Called as [done(...)], the function that [authenticate] hands to
    [loadUserProfile] cannot read a member of [this]: it throws before it
    has signalled or called anything. *)
Lemma authenticate_loaded_unbound (self : Strategy) (req : Request)
    (accessToken refreshToken err profile : value) :
  authenticate_loaded self req accessToken refreshToken
                      this_undefined err profile
  = throw (cannot_read VUndefined
             (if truthy err then "fail" else "_passReqToCallback")).
Proof. unfold authenticate_loaded. now destruct (truthy err). Qed.

(** Were [this] the strategy there, an error of the profile acquisition
    would be handed to [fail], and a profile to [verify]. *)
Lemma authenticate_loaded_bound (self : Strategy) (req : Request)
    (accessToken refreshToken err profile : value) :
  authenticate_loaded self req accessToken refreshToken
                      this_strategy err profile
  = if truthy err then emit (Fail err)
    else call_verify self
           (if truthy (_passReqToCallback self)
            then [request_value req; accessToken; refreshToken; profile]
            else [accessToken; refreshToken; profile]).
Proof.
  unfold authenticate_loaded.
  destruct (truthy err); [reflexivity |].
  now destruct (truthy (_passReqToCallback self)).
Qed.

(** [verified] called as [done(err, user, info)]. *)
Lemma verified_unbound (err user info : value) :
  verified this_undefined err user info
  = throw (cannot_read VUndefined
             (if truthy err then "error"
              else if truthy user then "success" else "fail")).
Proof.
  unfold verified. destruct (truthy err); [reflexivity |].
  now destruct (truthy user).
Qed.

(** [verified] called on the strategy, as in [done.call(strategy, err,
    user, info)]: the three outcomes of the specification. *)
Lemma verified_bound (err user info : value) :
  verified this_strategy err user info
  = emit (if truthy err then Error err
          else if truthy user then Success user info else Fail info).
Proof.
  unfold verified. destruct (truthy err); [reflexivity |].
  now destruct (truthy user).
Qed.

(** The answer of the provider never gets past the function of
    [authenticate]: whatever the answer, the response turn ends in a
    TypeError with nothing signalled. *)
Lemma userProfile_response_unbound (self : Strategy) (req : Request)
    (accessToken refreshToken err body : value) :
  exists k : string,
    userProfile_response JSON_parse
      (authenticate_loaded self req accessToken refreshToken) err body
    = throw (cannot_read VUndefined k).
Proof.
  unfold userProfile_response.
  destruct (truthy err).
  - rewrite authenticate_loaded_unbound. now eexists.
  - destruct (JSON_parse body) as [json | e].
    + js_simpl. destruct (nullish json) eqn:Hjson.
      * rewrite build_profile_nullish by assumption. js_simpl.
        rewrite authenticate_loaded_unbound. now eexists.
      * rewrite build_profile_defined by assumption. js_simpl.
        rewrite authenticate_loaded_unbound. js_simpl.
        rewrite authenticate_loaded_unbound. now eexists.
    + js_simpl. rewrite authenticate_loaded_unbound. now eexists.
Qed.

(** Reading the tokens calls nobody. *)
Lemma bind_silent {A B} (m : M A) (f : A -> M B) :
  fst m = [] -> (forall a, fst (f a) = []) -> fst (bind m f) = [].
Proof.
  destruct m as [tr [a | e]]; cbn; intros -> Hf; [| reflexivity].
  specialize (Hf a). destruct (f a) as [tr' c]. exact Hf.
Qed.

Lemma get_prop_silent (o : value) (k : string) : fst (get_prop o k) = [].
Proof. unfold get_prop. now destruct (nullish o). Qed.

Lemma js_or_silent (a b : M value) :
  fst a = [] -> fst b = [] -> fst (js_or a b) = [].
Proof.
  intros Ha Hb. apply bind_silent; [exact Ha |].
  intros v. now destruct (truthy v).
Qed.

Lemma token_of_silent (req : Request) (k : string) :
  fst (token_of req k) = [].
Proof.
  unfold token_of. repeat apply js_or_silent; apply get_prop_silent.
Qed.

(** With a skip setting that is not a function, the calls of a whole run of
    [authenticate] are at most the [fail()] of one of the two guards or the
    request to the provider: the verify callback is never called, and
    neither success nor error is ever signalled. *)
Lemma authenticate_only_guards (self : Strategy) (req : Request)
    (skip : value) :
  _skipUserProfile self = skip_value skip ->
  forall ev : event,
    In ev (fst (authenticate JSON_parse self req)) ->
    ev = Fail VUndefined
    \/ exists accessToken, ev = OAuthGet userinfo_url accessToken.
Proof.
  intros Hs ev. unfold authenticate.
  rewrite error_parameter_value. js_simpl.
  destruct (truthy (if truthy (query req) then _ else _)).
  { cbn. intros [<- | []]. now left. }
  destruct (truthy (body req)); cbn [negb].
  2:{ cbn. intros [<- | []]. now left. }
  pose proof (token_of_silent req "access_token") as Ha.
  destruct (token_of req "access_token") as [tra [accessToken | e]];
    cbn in Ha; subst tra; [| intros []].
  fold (@ret value accessToken). js_simpl.
  pose proof (token_of_silent req "refresh_token") as Hr.
  destruct (token_of req "refresh_token") as [trr [refreshToken | e]];
    cbn in Hr; subst trr; [| intros []].
  fold (@ret value refreshToken). js_simpl.
  unfold loadUserProfile. rewrite Hs.
  destruct (truthy skip); cbn [negb].
  { rewrite authenticate_loaded_unbound. intros []. }
  unfold userProfile, oauth2_get.
  destruct (respond (_oauth2 self) userinfo_url accessToken)
    as [[err body] |].
  - destruct (userProfile_response_unbound self req accessToken
                refreshToken err body) as [k ->].
    cbn. intros [<- | []]. right. now eexists.
  - cbn. intros [<- | []]. right. now eexists.
Qed.

(** C1 (as amended): when the profile acquisition completes with an
    error, the function that [authenticate] gave to [loadUserProfile] hands
    that error to [this.fail(err)]: run on the strategy it signals the
    failure outcome with the error as its reason, and on no receiver does
    it signal the error outcome; with a skip setting that is not a
    function, no run of [authenticate] signals the error outcome at all. *)
Theorem C1_profile_error_goes_to_fail (self : Strategy) (req : Request)
    (accessToken refreshToken err profile : value) :
  truthy err = true ->
  (forall this : this_arg,
     authenticate_loaded self req accessToken refreshToken this err profile
     = this_get this "fail" (emit (Fail err)))
  /\ authenticate_loaded self req accessToken refreshToken
                         this_strategy err profile
     = ([Fail err], Normal tt)
  /\ (forall (this : this_arg) (e : value),
        ~ In (Error e)
             (fst (authenticate_loaded self req accessToken refreshToken
                                       this err profile)))
  /\ (forall skip e : value,
        _skipUserProfile self = skip_value skip ->
        ~ In (Error e) (fst (authenticate JSON_parse self req))).
Proof.
  intros Herr.
  assert (Hroute : forall this : this_arg,
             authenticate_loaded self req accessToken refreshToken
                                 this err profile
             = this_get this "fail" (emit (Fail err))).
  { intros this. unfold authenticate_loaded. now rewrite Herr. }
  repeat split.
  - exact Hroute.
  - now rewrite Hroute.
  - intros this e. rewrite Hroute.
    destruct this; cbn; [tauto | intros [H | []]; discriminate].
  - intros skip e Hs Hin.
    destruct (authenticate_only_guards self req skip Hs _ Hin)
      as [H | [t H]]; discriminate.
Qed.

End Receivers.

(** C1 does not hold as stated: the provider refuses the token, and the
    error that [userProfile] completes with is not signalled through
    [error]; nor is the exception of the parser when the body is not
    JSON. *)
Lemma C1_error_outcome_counterexample :
  ~ In (Error (InternalOAuthError "failed to fetch user profile"
                                  transport_error))
       (fst (authenticate flat_parse refused_strategy token_request))
  /\ ~ In (Error (SyntaxError "Unexpected token in JSON"))
          (fst (authenticate flat_parse garbled_strategy token_request)).
Proof.
  split; vm_compute; intros [H | []]; discriminate.
Qed.

Lemma C1_profile_error_goes_to_fail_witness :
  authenticate_loaded refused_strategy token_request (VStr "tok") VUndefined
    this_strategy
    (InternalOAuthError "failed to fetch user profile" transport_error)
    VUndefined
  = ([Fail (InternalOAuthError "failed to fetch user profile"
                               transport_error)],
     Normal tt).
Proof.
  exact (proj1 (proj2 (C1_profile_error_goes_to_fail flat_parse
                         refused_strategy token_request (VStr "tok")
                         VUndefined
                         (InternalOAuthError "failed to fetch user profile"
                                             transport_error)
                         VUndefined eq_refl))).
Defined.

(** C4, on the code: with a skip setting that always answers true, in each
    of its three forms, [loadUserProfile] asks the provider nothing and
    completes with [done(null)]; but the function of [authenticate] that
    receives this is called without a receiver, so reading
    [this._passReqToCallback] throws and the verify callback is not called:
    the run of [authenticate] has no call at all and ends in a
    TypeError. *)
Theorem C4_skipped_profile_never_reaches_verify :
  (forall done : function2,
     loadUserProfile flat_parse (skipping_strategy skip_true accepting_verify)
                     (VStr "tok") done
     = done this_undefined VNull VUndefined)
  /\ (forall done : function2,
        loadUserProfile flat_parse
          (skipping_strategy skip_sync_true accepting_verify)
          (VStr "tok") done
        = done this_undefined VNull VUndefined)
  /\ (forall done : function2,
        loadUserProfile flat_parse
          (skipping_strategy skip_async_true accepting_verify)
          (VStr "tok") done
        = done this_undefined VNull VUndefined)
  /\ authenticate flat_parse (skipping_strategy skip_true accepting_verify)
                  token_request
     = ([], Throw (cannot_read VUndefined "_passReqToCallback"))
  /\ authenticate flat_parse
       (skipping_strategy skip_sync_true accepting_verify) token_request
     = ([], Throw (cannot_read VUndefined "_passReqToCallback"))
  /\ authenticate flat_parse
       (skipping_strategy skip_async_true accepting_verify) token_request
     = ([], Throw (cannot_read VUndefined "_passReqToCallback")).
Proof.
  split; [| split; [| split; [| repeat apply conj; reflexivity]]];
    intros done.
  - now apply loadUserProfile_skip_value with (v := VBool true).
  - apply loadUserProfile_skip_sync
      with (v := VBool true)
           (f := {| fn_length := 0;
                    fn_call := fun _ _ => ret (VBool true) |});
      [reflexivity | cbn; lia | reflexivity | reflexivity].
  - eapply loadUserProfile_skip_async
      with (v := VBool true) (r := VUndefined);
      [reflexivity | cbn; lia | reflexivity | reflexivity].
Qed.

(** C5, on the code: [verified] is a [function] declaration, and the
    application completes it as [done(err, user, info)], without a
    receiver: [done(null, false, {message: "denied"})] throws on reading
    [this.fail], [done(null, {id: 1})] on reading [this.success], and
    [done(err)] on reading [this.error]; nothing is signalled.  In a run of
    [authenticate] the verify callback is not even reached. *)
Theorem C5_verified_has_no_receiver :
  verified this_undefined VNull (VBool false) denied
  = ([], Throw (cannot_read VUndefined "fail"))
  /\ verified this_undefined VNull user1 VUndefined
     = ([], Throw (cannot_read VUndefined "success"))
  /\ verified this_undefined (VStr "boom") VUndefined VUndefined
     = ([], Throw (cannot_read VUndefined "error"))
  /\ authenticate_loaded (skipping_strategy skip_true rejecting_verify)
       token_request (VStr "tok") VUndefined this_strategy VNull VUndefined
     = ([Verify [VStr "tok"; VUndefined; VUndefined]],
        Throw (cannot_read VUndefined "fail"))
  /\ authenticate flat_parse (skipping_strategy skip_true rejecting_verify)
                  token_request
     = ([], Throw (cannot_read VUndefined "_passReqToCallback"))
  /\ authenticate flat_parse (skipping_strategy skip_true accepting_verify)
                  token_request
     = ([], Throw (cannot_read VUndefined "_passReqToCallback")).
Proof. repeat apply conj; reflexivity. Qed.

(** ** Runs on concrete requests *)

(** An empty string is falsy: an empty [error] parameter does not stop
    [authenticate], and an empty token in the body gives way to the one of
    the query string. *)
Example empty_values_are_absent :
  carries_error empty_values_request = false
  /\ token_of empty_values_request "access_token" = ret (VStr "from-query").
Proof. split; reflexivity. Qed.

(** The provider refuses the token: the response turn ends in the
    TypeError of [this.fail]. *)
Example refused_run :
  authenticate flat_parse refused_strategy token_request
  = ([OAuthGet userinfo_url (VStr "tok")],
     Throw (cannot_read VUndefined "fail")).
Proof. reflexivity. Qed.

(** The provider answers with the profile of Ada: [done(null, profile)]
    throws on [this._passReqToCallback] inside the [try] block, the [catch]
    clause calls [done(e)] with that TypeError, and this second call throws
    on [this.fail]. *)
Example answered_run :
  authenticate flat_parse
    (strategy_of (answering VNull (VStr ada_body)) (skip_value VUndefined)
                 VUndefined accepting_verify)
    token_request
  = ([OAuthGet userinfo_url (VStr "tok")],
     Throw (cannot_read VUndefined "fail")).
Proof. reflexivity. Qed.

(** A request without a parsed body fails at the second guard. *)
Example bodyless_run :
  authenticate flat_parse refused_strategy
    {| query := VObj []; body := VUndefined; headers := VObj [] |}
  = ([Fail VUndefined], Normal tt).
Proof. reflexivity. Qed.

(** Construction with the options of the documentation. *)
Example constructed :
  match constructor plain_base
          (options_object [("clientID", VStr "123-456-789");
                           ("clientSecret", VStr "shhh-its-a-secret")])
          accepting_verify with
  | (_, Normal self) =>
      name self = "google-token"
      /\ prop (options self) "authorizationURL"
         = VStr "https://accounts.google.com/o/oauth2/auth"
      /\ prop (options self) "tokenURL"
         = VStr "https://accounts.google.com/o/oauth2/token"
  | (_, Throw _) => False
  end.
Proof. cbn. repeat apply conj; reflexivity. Qed.

(** ** Further properties of the class *)

Lemma bind_unit_r (m : M unit) : bind m (fun _ => ret tt) = m.
Proof.
  destruct m as [tr [[] | e]]; cbn; [now rewrite app_nil_r | reflexivity].
Qed.

Section Guards.

Variable JSON_parse : value -> completion value.

(** X1: a request without a parsed body is answered with [fail()] and
    nothing else, whatever its query string and headers hold: reading the
    [error] parameter never throws, and both guards end in the same call. *)
Theorem X1_missing_body_fails (self : Strategy) (req : Request) :
  truthy (body req) = false ->
  authenticate JSON_parse self req = ([Fail VUndefined], Normal tt).
Proof.
  intros Hb. unfold authenticate. rewrite error_parameter_value. js_simpl.
  destruct (truthy (if truthy (query req) then _ else _)); [reflexivity |].
  now rewrite Hb.
Qed.

(** X2: with a skip setting that is not a function, a run of
    [authenticate] has one of four shapes: the [fail()] of a guard; an
    exception before any call; the request to the provider, left
    unanswered; the request to the provider followed by a TypeError on a
    member of [this].  So at most one call is made, the verify callback is
    never called, and neither success nor error is signalled. *)
Theorem X2_runs_without_function_skip (self : Strategy) (req : Request)
    (skip : value) :
  _skipUserProfile self = skip_value skip ->
  authenticate JSON_parse self req = ([Fail VUndefined], Normal tt)
  \/ (exists e, authenticate JSON_parse self req = ([], Throw e))
  \/ (exists accessToken,
        authenticate JSON_parse self req
        = ([OAuthGet userinfo_url accessToken], Normal tt)
        /\ respond (_oauth2 self) userinfo_url accessToken = None)
  \/ (exists accessToken k,
        authenticate JSON_parse self req
        = ([OAuthGet userinfo_url accessToken],
           Throw (cannot_read VUndefined k))).
Proof.
  intros Hs. unfold authenticate.
  rewrite error_parameter_value. js_simpl.
  destruct (truthy (if truthy (query req) then _ else _)); [now left |].
  destruct (truthy (body req)); cbn [negb]; [| now left].
  pose proof (token_of_silent req "access_token") as Ha.
  destruct (token_of req "access_token") as [tra [accessToken | e]];
    cbn in Ha; subst tra; [| right; left; now exists e].
  fold (@ret value accessToken). js_simpl.
  pose proof (token_of_silent req "refresh_token") as Hr.
  destruct (token_of req "refresh_token") as [trr [refreshToken | e]];
    cbn in Hr; subst trr; [| right; left; now exists e].
  fold (@ret value refreshToken). js_simpl.
  unfold loadUserProfile. rewrite Hs.
  destruct (truthy skip); cbn [negb].
  { rewrite authenticate_loaded_unbound. right; left. now eexists. }
  unfold userProfile, oauth2_get.
  destruct (respond (_oauth2 self) userinfo_url accessToken)
    as [[err body] |] eqn:Hrespond.
  - destruct (userProfile_response_unbound JSON_parse self req accessToken
                refreshToken err body) as [k ->].
    right; right; right. now exists accessToken, k.
  - right; right; left. now exists accessToken.
Qed.

(** X3: when the profile is not skipped, [authenticate] makes exactly one
    call, the GET of the fixed userinfo URL with the access token it
    extracted.  A missing token is not refused: the request goes out with
    the falsy value that the last place read gave. *)
Theorem X3_one_request_with_extracted_token (self : Strategy)
    (req : Request) (skip accessToken refreshToken : value) :
  carries_error req = false ->
  truthy (body req) = true ->
  token_of req "access_token" = ret accessToken ->
  token_of req "refresh_token" = ret refreshToken ->
  _skipUserProfile self = skip_value skip ->
  truthy skip = false ->
  fst (authenticate JSON_parse self req)
  = [OAuthGet userinfo_url accessToken].
Proof.
  intros He Hb Ha Hr Hs Hskip.
  rewrite (authenticate_proceeds JSON_parse self req accessToken
             refreshToken He Hb Ha Hr).
  unfold loadUserProfile. rewrite Hs, Hskip. cbn [negb].
  unfold userProfile, oauth2_get.
  destruct (respond (_oauth2 self) userinfo_url accessToken)
    as [[err body] |]; [| reflexivity].
  now destruct (userProfile_response_unbound JSON_parse self req accessToken
                  refreshToken err body) as [k ->].
Qed.

(** X9: a token in the body is not enough when the request has no query
    object: the refresh token is read by the same chain, so with no truthy
    [refresh_token] in the body, line 69 reads it from [req.query] and
    throws a TypeError, with nothing signalled. *)
Theorem X9_refresh_token_needs_query (self : Strategy) (req : Request) :
  truthy (prop (body req) "access_token") = true ->
  truthy (prop (body req) "refresh_token") = false ->
  nullish (query req) = true ->
  authenticate JSON_parse self req
  = ([], Throw (cannot_read (query req) "refresh_token")).
Proof.
  intros Ha Hr Hq.
  assert (Hb : truthy (body req) = true).
  { destruct (body req); cbn in *; try discriminate; reflexivity. }
  assert (Hbody : nullish (body req) = false)
    by now apply truthy_not_nullish.
  unfold authenticate. rewrite error_parameter_value.
  rewrite (nullish_not_truthy _ Hq). js_simpl.
  rewrite (nullish_not_truthy _ Hq), Hb. cbn [negb].
  unfold token_of. rewrite !(get_prop_defined (body req)) by assumption.
  js_simpl. rewrite Ha. js_simpl. rewrite Ha. js_simpl. rewrite Hr.
  rewrite (get_prop_nullish (query req)) by assumption. now js_simpl.
Qed.

(** X10: when neither the body nor the query string holds a truthy access
    token, the headers are read without a guard: a request with no headers
    object makes [authenticate] throw a TypeError, with nothing
    signalled. *)
Theorem X10_access_token_needs_headers (self : Strategy) (req : Request) :
  carries_error req = false ->
  truthy (body req) = true ->
  truthy (prop (body req) "access_token") = false ->
  nullish (query req) = false ->
  truthy (prop (query req) "access_token") = false ->
  nullish (headers req) = true ->
  authenticate JSON_parse self req
  = ([], Throw (cannot_read (headers req) "access_token")).
Proof.
  intros He Hb Ha Hquery Hqa Hh.
  unfold authenticate. rewrite error_parameter_value. js_simpl.
  assert (Hg : truthy (if truthy (query req) then prop (query req) "error"
                       else query req) = false).
  { unfold carries_error in He.
    destruct (truthy (query req)) eqn:Hq; [exact He | exact Hq]. }
  rewrite Hg, Hb. cbn [negb]. unfold token_of.
  rewrite (get_prop_defined (body req)) by now apply truthy_not_nullish.
  js_simpl. rewrite Ha.
  rewrite (get_prop_defined (query req)) by assumption.
  js_simpl. rewrite Hqa.
  rewrite (get_prop_nullish (headers req)) by assumption. now js_simpl.
Qed.

End Guards.

Section Collaborators.

Variable JSON_parse : value -> completion value.
Variable OAuth2Strategy :
  list (string * value) -> verify_fn -> completion base_fields.

(** X4: an asynchronous skip predicate, one that declares more than one
    parameter and completes with [done(err, skip)], decides as follows: a
    truthy [err] is handed to [done] and wins over the skip flag; without
    an error a truthy flag completes with [done(null)]; only a falsy flag
    without an error lets the provider be asked. *)
Theorem X4_async_predicate_decides (self : Strategy)
    (accessToken err skip r : value) (f : js_function) (done : function2) :
  _skipUserProfile self = skip_function f ->
  (1 < fn_length f)%nat ->
  (forall cb : arrow2,
     fn_call f [accessToken] (Some cb) = (cb err skip ;;; ret r)) ->
  loadUserProfile JSON_parse self accessToken done
  = if truthy err then done this_undefined err VUndefined
    else if truthy skip then done this_undefined VNull VUndefined
    else userProfile JSON_parse self accessToken done.
Proof.
  intros Hs Hlen Hcall. unfold loadUserProfile. rewrite Hs.
  replace (1 <? fn_length f)%nat with true
    by (symmetry; apply Nat.ltb_lt; exact Hlen).
  rewrite Hcall, bind_assoc. unfold loadUserProfile_decided.
  rewrite bind_unit_r.
  destruct (truthy err); [reflexivity |].
  now destruct (truthy skip).
Qed.

(** X5: a skip predicate with at most one declared parameter is called on
    the spot, inside [authenticate]; when it throws, the exception leaves
    [authenticate] as it is, and neither the provider nor the host
    framework hears of the request. *)
Theorem X5_sync_predicate_exception_escapes (self : Strategy)
    (req : Request) (accessToken refreshToken e : value) (f : js_function) :
  carries_error req = false ->
  truthy (body req) = true ->
  token_of req "access_token" = ret accessToken ->
  token_of req "refresh_token" = ret refreshToken ->
  _skipUserProfile self = skip_function f ->
  (fn_length f <= 1)%nat ->
  fn_call f [] None = throw e ->
  authenticate JSON_parse self req = ([], Throw e).
Proof.
  intros He Hb Ha Hr Hs Hlen Hcall.
  rewrite (authenticate_proceeds JSON_parse self req accessToken
             refreshToken He Hb Ha Hr).
  unfold loadUserProfile. rewrite Hs.
  replace (1 <? fn_length f)%nat with false
    by (symmetry; apply Nat.ltb_ge; exact Hlen).
  now rewrite Hcall.
Qed.

(** X6: a body that parses to [null] is valid JSON but gives no profile:
    reading [json.id] throws inside the [try] block, and [done] is
    completed with that TypeError as its error. *)
Theorem X6_null_response_is_an_error (done : function2)
    (err body json : value) :
  truthy err = false ->
  JSON_parse body = Normal json ->
  nullish json = true ->
  userProfile_response JSON_parse done err body
  = done this_undefined (cannot_read json "id") VUndefined.
Proof.
  intros Herr Hparse Hjson. unfold userProfile_response.
  rewrite Herr, Hparse. js_simpl.
  rewrite build_profile_nullish by assumption. now js_simpl.
Qed.

(** X7: [done(null, profile)] is called inside the [try] block.  When that
    call returns, it is the only one; when it throws, the [catch] clause
    calls [done] a second time, now with the exception as its error, so one
    answer of the provider completes [done] twice. *)
Theorem X7_done_completed_twice_on_throw (done : function2)
    (err body json profile : value) :
  truthy err = false ->
  JSON_parse body = Normal json ->
  build_profile json body = ret profile ->
  (forall tr, done this_undefined VNull profile = (tr, Normal tt) ->
     userProfile_response JSON_parse done err body = (tr, Normal tt))
  /\ (forall tr e, done this_undefined VNull profile = (tr, Throw e) ->
       userProfile_response JSON_parse done err body
       = ((tr ++ fst (done this_undefined e VUndefined))%list,
          snd (done this_undefined e VUndefined))).
Proof.
  intros Herr Hparse Hbuild. unfold userProfile_response.
  rewrite Herr, Hparse. js_simpl. rewrite Hbuild. js_simpl.
  split.
  - intros tr ->. reflexivity.
  - intros tr e ->. cbn.
    now destruct (done this_undefined e VUndefined).
Qed.


End Collaborators.

(** ** The further properties on concrete requests *)

Lemma X1_missing_body_fails_witness :
  authenticate flat_parse refused_strategy bodyless_request
  = ([Fail VUndefined], Normal tt).
Proof. apply X1_missing_body_fails. reflexivity. Defined.

Lemma X2_runs_without_function_skip_witness :
  exists accessToken k,
    authenticate flat_parse refused_strategy token_request
    = ([OAuthGet userinfo_url accessToken],
       Throw (cannot_read VUndefined k)).
Proof.
  destruct (X2_runs_without_function_skip flat_parse refused_strategy
              token_request VUndefined eq_refl)
    as [H | [[e H] | [[accessToken [H _]] | H]]];
    try (vm_compute in H; discriminate H).
  exact H.
Defined.

Lemma X3_one_request_with_extracted_token_witness :
  fst (authenticate flat_parse refused_strategy tokenless_request)
  = [OAuthGet userinfo_url VUndefined].
Proof.
  apply X3_one_request_with_extracted_token
    with (skip := VUndefined) (refreshToken := VUndefined);
    reflexivity.
Defined.

Lemma X4_async_predicate_decides_witness :
  loadUserProfile flat_parse
    (skipping_strategy (skip_async_answering (VStr "boom") (VBool true))
                       accepting_verify)
    (VStr "tok") (fun _ err _ => emit (Fail err))
  = ([Fail (VStr "boom")], Normal tt).
Proof.
  exact (X4_async_predicate_decides flat_parse
           (skipping_strategy
              (skip_async_answering (VStr "boom") (VBool true))
              accepting_verify)
           (VStr "tok") (VStr "boom") (VBool true) VUndefined
           {| fn_length := 2;
              fn_call := fun _ cb =>
                match cb with
                | Some done => done (VStr "boom") (VBool true) ;;;
                               ret VUndefined
                | None => ret VUndefined
                end |}
           (fun _ err _ => emit (Fail err))
           eq_refl (le_n 2) (fun _ => eq_refl)).
Defined.

Lemma X5_sync_predicate_exception_escapes_witness :
  authenticate flat_parse
    (skipping_strategy (skip_sync_throwing (VStr "boom")) accepting_verify)
    token_request
  = ([], Throw (VStr "boom")).
Proof.
  apply X5_sync_predicate_exception_escapes
    with (accessToken := VStr "tok") (refreshToken := VUndefined)
         (f := {| fn_length := 1; fn_call := fun _ _ => throw (VStr "boom") |});
    reflexivity.
Defined.

Lemma X6_null_response_is_an_error_witness :
  userProfile_response null_aware_parse (fun _ err _ => emit (Fail err))
                       VNull (VStr "null")
  = ([Fail (cannot_read VNull "id")], Normal tt).
Proof.
  exact (X6_null_response_is_an_error null_aware_parse
           (fun _ err _ => emit (Fail err)) VNull (VStr "null") VNull
           eq_refl eq_refl eq_refl).
Defined.

Lemma X7_done_completed_twice_on_throw_witness :
  userProfile_response flat_parse throwing_done VNull (VStr ada_body)
  = ([Fail VNull; Fail late], Throw late).
Proof.
  exact (proj2 (X7_done_completed_twice_on_throw flat_parse throwing_done
                  VNull (VStr ada_body) ada_json ada_profile
                  eq_refl eq_refl eq_refl)
               [Fail VNull] late eq_refl).
Defined.


Lemma X9_refresh_token_needs_query_witness :
  authenticate flat_parse refused_strategy body_token_queryless_request
  = ([], Throw (cannot_read VUndefined "refresh_token")).
Proof.
  exact (X9_refresh_token_needs_query flat_parse refused_strategy
           body_token_queryless_request eq_refl eq_refl eq_refl).
Defined.

Lemma X10_access_token_needs_headers_witness :
  authenticate flat_parse refused_strategy headerless_request
  = ([], Throw (cannot_read VUndefined "access_token")).
Proof.
  exact (X10_access_token_needs_headers flat_parse refused_strategy
           headerless_request eq_refl eq_refl eq_refl eq_refl eq_refl
           eq_refl).
Defined.
